(** * EarthquakeDetector: a shallow embedding of [earthquake_detection.py]

    The detector keeps one sample history per seismograph, looks for a peak
    in the trailing thirty-day window each time samples arrive, and is meant
    to raise an alert once every seismograph shows the same peak.

    Python values are modelled as follows.
    - Integers (sample values, indices, the sample rate) are [Z]; the sample
      rate is taken to be an integer, as a slice bound has to be.
    - A one-dimensional numpy array of integer samples is a [list Z]; an
      element read out of it is a numpy scalar, a zero-dimensional value.
      [ndarray] holds both, because [peak_detect] is handed both.
    - A raised exception is a value of [exn]; a computation that may raise
      has type [exc A].  The methods of the detector mutate [self], and a
      mutation made before an exception is raised stays in place, so a method
      is a function from the detector to an outcome paired with the detector.
    - [scipy.signal.find_peaks_cwt] and the alert callback are external.  The
      first is a variable of the section; the second is recorded in a log. *)

From Stdlib Require Import ZArith List Bool Lia.
From stdpp Require Import base list.
From Equations Require Import Equations.
Import ListNotations.

#[local] Open Scope Z_scope.

(** ** Exceptions *)

Inductive exn : Type :=
| IndexError
| ValueError
| TypeError
| OtherError.

Definition exc (A : Type) : Type := (exn + A)%type.

Definition ok {A : Type} (a : A) : exc A := inr a.
Definition throw {A : Type} (e : exn) : exc A := inl e.

Definition exc_bind {A B : Type} (c : exc A) (k : A -> exc B) : exc B :=
  match c with
  | inl e => inl e
  | inr a => k a
  end.

Declare Scope exc_scope.
Delimit Scope exc_scope with exc.
Notation "x <~ c ;; k" := (exc_bind c (fun x => k))
  (at level 100, c at next level, right associativity) : exc_scope.

#[local] Open Scope exc_scope.

(** A list comprehension whose element expression may raise: the first
    exception ends the comprehension. *)
Fixpoint comprehension {A B : Type} (f : A -> exc B) (l : list A) : exc (list B) :=
  match l with
  | [] => ok []
  | a :: rest =>
      b <~ f a ;;
      bs <~ comprehension f rest ;;
      ok (b :: bs)
  end.

(** ** Python sequences *)

(** [l[i]] and [l[i] = x] accept [-len <= i < len]; a negative index counts
    from the end. *)
Definition norm_index (len : nat) (i : Z) : exc nat :=
  let n := Z.of_nat len in
  if (0 <=? i) && (i <? n) then ok (Z.to_nat i)
  else if (- n <=? i) && (i <? 0) then ok (Z.to_nat (n + i))
  else throw IndexError.

Definition getitem {A : Type} (l : list A) (i : Z) : exc A :=
  k <~ norm_index (length l) i ;;
  match l !! k with
  | Some a => ok a
  | None => throw IndexError
  end.

Definition setitem {A : Type} (l : list A) (i : Z) (a : A) : exc (list A) :=
  k <~ norm_index (length l) i ;;
  ok (<[k := a]> l).

(** [l[start:]]: a negative start counts from the end, and a start outside
    the sequence is clipped to it. *)
Definition slice_from {A : Type} (start : Z) (l : list A) : list A :=
  let n := Z.of_nat (length l) in
  let s := if start <? 0 then Z.max (start + n) 0 else Z.min start n in
  drop (Z.to_nat s) l.

(** [max(l)] for a list of integers. *)
Definition py_max (l : list Z) : exc Z :=
  match l with
  | [] => throw ValueError
  | x :: rest => ok (fold_left Z.max rest x)
  end.

(** [l.index(x)]: the first position holding [x]. *)
Fixpoint py_list_index (l : list Z) (x : Z) : exc Z :=
  match l with
  | [] => throw ValueError
  | y :: rest =>
      if y =? x then ok 0
      else k <~ py_list_index rest x ;; ok (k + 1)
  end.

(** [x in l]. *)
Definition py_in (x : Z) (l : list Z) : bool := existsb (Z.eqb x) l.

(** ** numpy values *)

Inductive ndarray : Type :=
| Scalar (z : Z)
| Vector (l : list Z).

Definition ndim (a : ndarray) : nat :=
  match a with
  | Scalar _ => 0%nat
  | Vector _ => 1%nat
  end.

(** [a.shape[0]]: the shape of a scalar is the empty tuple. *)
Definition shape0 (a : ndarray) : exc Z :=
  match a with
  | Scalar _ => throw IndexError
  | Vector l => ok (Z.of_nat (length l))
  end.

(** [a[i]] for an integer [i]. *)
Definition nd_getitem (a : ndarray) (i : Z) : exc Z :=
  match a with
  | Scalar _ => throw IndexError
  | Vector l => getitem l i
  end.

(** [r[0]] where [r] is an integer: a numpy scalar cannot be indexed. *)
Definition int_getitem (r : Z) (i : Z) : exc Z := throw IndexError.

(** [bool(v)] for an entry of [self.seismographs]: [None] is false, an array
    of one element has the truth value of that element, an empty array is
    false (with a deprecation warning in the numpy releases of the time), and
    an array of two or more elements has no truth value. *)
Definition truth (v : option (list Z)) : exc bool :=
  match v with
  | None => ok false
  | Some [] => ok false
  | Some [x] => ok (negb (x =? 0))
  | Some (_ :: _ :: _) => throw ValueError
  end.

(** [np.concatenate(a, b)] where [a] is an entry of [self.seismographs] and
    [b] a one-dimensional array.  The first argument is taken as the sequence
    of arrays to join and the second as the axis; a one-dimensional array,
    whatever its length, is not an integer, and the call raises [TypeError]
    before it looks at [a]. *)
Definition np_concatenate (a : option (list Z)) (b : list Z) : exc (list Z) :=
  throw TypeError.

(** ** The detector *)

(** What the detector does to the outside, and which seismographs it asks for
    corroboration, in order of occurrence (most recent first). *)
Inductive event : Type :=
| Alert
| IsPeakQuery (seis : option (list Z)) (peak_index : Z).

Record EarthquakeDetector : Type := mkDetector {
  seismographs : list (option (list Z));
  sample_rate : Z;
  month_window_size : Z;
  confirmed_peak_indices : list Z;
  log : list event
}.

Definition is_alert (e : event) : bool :=
  match e with
  | Alert => true
  | IsPeakQuery _ _ => false
  end.

Definition alert_count (self : EarthquakeDetector) : nat :=
  length (List.filter is_alert (log self)).

(** [EarthquakeDetector(seismograph_count, sample_rate_hz, alert_callback)];
    [[None] * n] is empty for [n <= 0]. *)
Definition init (seismograph_count sample_rate_hz : Z) : EarthquakeDetector :=
  {| seismographs := repeat None (Z.to_nat seismograph_count);
     sample_rate := sample_rate_hz;
     month_window_size := 30 * 24 * 60 * 60 * sample_rate_hz;
     confirmed_peak_indices := [];
     log := [] |}.

(** Methods: the outcome and the detector as the call leaves it. *)
Definition M (A : Type) : Type := EarthquakeDetector -> exc A * EarthquakeDetector.

Definition ret {A : Type} (a : A) : M A := fun self => (ok a, self).

Definition bind {A B : Type} (c : M A) (k : A -> M B) : M B :=
  fun self =>
    match c self with
    | (inl e, self') => (inl e, self')
    | (inr a, self') => k a self'
    end.

Definition lift {A : Type} (c : exc A) : M A := fun self => (c, self).

Definition get : M EarthquakeDetector := fun self => (ok self, self).

Declare Scope method_scope.
Delimit Scope method_scope with method.
Notation "x <- c ;; k" := (bind c (fun x => k))
  (at level 100, c at next level, right associativity) : method_scope.
Notation "c ;; k" := (bind c (fun _ => k))
  (at level 100, right associativity) : method_scope.

Definition set_seismographs (l : list (option (list Z))) : M unit :=
  fun self =>
    (ok tt, {| seismographs := l;
               sample_rate := sample_rate self;
               month_window_size := month_window_size self;
               confirmed_peak_indices := confirmed_peak_indices self;
               log := log self |}).

Definition emit (e : event) : M unit :=
  fun self =>
    (ok tt, {| seismographs := seismographs self;
               sample_rate := sample_rate self;
               month_window_size := month_window_size self;
               confirmed_peak_indices := confirmed_peak_indices self;
               log := e :: log self |}).

(** [self.confirmed_peak_indices.append(i)] *)
Definition append_confirmed (i : Z) : M unit :=
  fun self =>
    (ok tt, {| seismographs := seismographs self;
               sample_rate := sample_rate self;
               month_window_size := month_window_size self;
               confirmed_peak_indices := confirmed_peak_indices self ++ [i];
               log := log self |}).

Section Detector.

(** [scipy.signal.find_peaks_cwt(vector, widths)]: the indices of the peaks
    it finds, or an exception of its own. *)
Variable find_peaks_cwt : ndarray -> Z -> exc (list Z).

(** [peak_detect(self, samples)].  On a numpy scalar the first statement,
    [samples.shape[0]], raises.  On an array, the comprehension of the
    recursive branch runs over [range(len(samples))] and reads [samples[i]],
    that is, over the elements of the array in order, each a numpy scalar. *)
Equations peak_detect (rate : Z) (samples : ndarray) : exc Z
  by wf (ndim samples) lt :=
  peak_detect rate (Scalar z) := throw IndexError;
  peak_detect rate (Vector l) :=
    let samples := Vector l in
    dim <~ shape0 samples ;;
    let hour := rate * 60 * 60 in
    peak_inds <~
      (if dim =? 1 then find_peaks_cwt samples hour
       else comprehension
              (fun x => r <~ peak_detect rate (Scalar x) ;; int_getitem r 0) l) ;;
    peaks <~ comprehension (nd_getitem samples) peak_inds ;;
    top <~ py_max peaks ;;
    k <~ py_list_index peaks top ;;
    getitem peak_inds k.

#[local] Open Scope method_scope.

(** [is_peak(self, seis, peak_index)] *)
Definition is_peak (seis : option (list Z)) (peak_index : Z) : M bool :=
  emit (IsPeakQuery seis peak_index) ;;
  ret false.

(** The loop of [check_for_quake] over [self.seismographs]: the value of
    [true_peak] when the loop ends, with [break] at the first seismograph
    that does not show the peak. *)
Fixpoint all_show_peak (seis_list : list (option (list Z))) (peak_index : Z)
  : M bool :=
  match seis_list with
  | [] => ret true
  | seis :: rest =>
      shown <- is_peak seis peak_index ;;
      if negb shown then ret false
      else all_show_peak rest peak_index
  end.

(** The first half of [check_for_quake]: the window, the peak search and the
    index the peak is filed under. *)
Definition candidate_peak_index (seismograph_id : Z) : M Z :=
  self <- get ;;
  entry <- lift (getitem (seismographs self) seismograph_id) ;;
  history <- lift (match entry with
                   | None => throw TypeError
                   | Some a => ok a
                   end) ;;
  let samples := slice_from (- month_window_size self) history in
  reverse_peak_index <- lift (peak_detect (sample_rate self) (Vector samples)) ;;
  ret (Z.of_nat (length samples) - month_window_size self + reverse_peak_index).

(** The second half: the ledger test, the corroboration loop, the alert. *)
Definition confirm_peak (peak_index : Z) : M unit :=
  self <- get ;;
  if negb (py_in peak_index (confirmed_peak_indices self)) then
    true_peak <- all_show_peak (seismographs self) peak_index ;;
    if true_peak then
      emit Alert ;;
      append_confirmed peak_index
    else ret tt
  else ret tt.

(** [check_for_quake(self, seismograph_id)] *)
Definition check_for_quake (seismograph_id : Z) : M unit :=
  peak_index <- candidate_peak_index seismograph_id ;;
  confirm_peak peak_index.

(** The branch of [new_samples] that stores the batch. *)
Definition store_samples (seismograph_id : Z) (samples : list Z) : M unit :=
  self <- get ;;
  entry <- lift (getitem (seismographs self) seismograph_id) ;;
  nonempty <- lift (truth entry) ;;
  if nonempty then
    joined <- lift (np_concatenate entry samples) ;;
    updated <- lift (setitem (seismographs self) seismograph_id (Some joined)) ;;
    set_seismographs updated
  else
    updated <- lift (setitem (seismographs self) seismograph_id (Some samples)) ;;
    set_seismographs updated.

(** [new_samples(self, seismograph_id, samples)] *)
Definition new_samples (seismograph_id : Z) (samples : list Z) : M unit :=
  store_samples seismograph_id samples ;;
  check_for_quake seismograph_id.

(** A session: ingestion calls made one after the other on the same
    detector.  An exception goes to the caller, who may go on calling; a
    caller who stops at the first exception sees a prefix of the session. *)
Fixpoint run (calls : list (Z * list Z)) (self : EarthquakeDetector)
  : EarthquakeDetector :=
  match calls with
  | [] => self
  | (seismograph_id, samples) :: rest =>
      run rest (snd (new_samples seismograph_id samples self))
  end.

End Detector.

Arguments peak_detect find_peaks_cwt rate samples : assert.

(** A peak finder that reports position 0, and one that reports nothing. *)
Definition finds_first : ndarray -> Z -> exc (list Z) := fun _ _ => ok [0].
Definition finds_nothing : ndarray -> Z -> exc (list Z) := fun _ _ => ok [].


(** The scenario of the specification: a triangular pulse of height 10 at
    index 5 of ten samples, over a baseline of 0 with noise of at most 1. *)
Definition pulse : list Z := [0; 1; 0; 2; 6; 10; 6; 2; 0; 1].

(** What a call of [new_samples] keeps: the number of seismographs, the
    ledger, the rate and window size, and every alert of the log and no
    more. *)
Record keeps (self self' : EarthquakeDetector) : Prop := {
  keeps_count : length (seismographs self') = length (seismographs self);
  keeps_rate : sample_rate self' = sample_rate self;
  keeps_window : month_window_size self' = month_window_size self;
  keeps_ledger : confirmed_peak_indices self' = confirmed_peak_indices self;
  keeps_alerts : alert_count self' = alert_count self
}.

(** ** Basic facts *)

Lemma norm_index_range (len : nat) (i : Z) (k : nat) :
  norm_index len i = ok k -> (k < len)%nat.
Proof.
  unfold norm_index, ok, throw.
  destruct ((0 <=? i) && (i <? Z.of_nat len)) eqn:Hin.
  - intros [= <-]. apply andb_true_iff in Hin as [H1 H2]. lia.
  - destruct ((- Z.of_nat len <=? i) && (i <? 0)) eqn:Hneg; [| discriminate].
    intros [= <-]. apply andb_true_iff in Hneg as [H1 H2]. lia.
Qed.

Lemma norm_index_outside (len : nat) (i : Z) :
  i < - Z.of_nat len \/ Z.of_nat len <= i -> norm_index len i = throw IndexError.
Proof.
  intros Hout. unfold norm_index.
  destruct (0 <=? i) eqn:H0, (i <? Z.of_nat len) eqn:H1,
    (- Z.of_nat len <=? i) eqn:H2, (i <? 0) eqn:H3; simpl; try reflexivity; lia.
Qed.

Lemma norm_index_negative (len : nat) (i : Z) :
  - Z.of_nat len <= i < 0 -> norm_index len i = norm_index len (Z.of_nat len + i).
Proof.
  intros Hneg. unfold norm_index.
  destruct (0 <=? i) eqn:H0; [lia |]. simpl.
  destruct (- Z.of_nat len <=? i) eqn:H2; [| lia].
  destruct (i <? 0) eqn:H3; [| lia]. simpl.
  destruct (0 <=? Z.of_nat len + i) eqn:H4; [| lia].
  destruct (Z.of_nat len + i <? Z.of_nat len) eqn:H5; [| lia].
  reflexivity.
Qed.

Lemma setitem_length {A : Type} (l l' : list A) (i : Z) (a : A) :
  setitem l i a = ok l' -> length l' = length l.
Proof.
  unfold setitem, exc_bind, ok. destruct (norm_index (length l) i); [discriminate |].
  intros [= <-]. apply length_insert.
Qed.

Lemma getitem_nil {A : Type} (i : Z) : getitem (@nil A) i = throw IndexError.
Proof.
  unfold getitem. rewrite norm_index_outside; [reflexivity |]. simpl. lia.
Qed.


(** [peak_detect] on a numpy scalar fails on its first statement. *)
Lemma peak_detect_scalar (f : ndarray -> Z -> exc (list Z)) (rate z : Z) :
  peak_detect f rate (Scalar z) = throw IndexError.
Proof. simp peak_detect. reflexivity. Qed.

(** On an array of any length but one, the peak indices come from the
    recursive branch. *)
Lemma peak_detect_cons2 (f : ndarray -> Z -> exc (list Z)) (rate x y : Z) (l : list Z) :
  peak_detect f rate (Vector (x :: y :: l)) = throw IndexError.
Proof.
  simp peak_detect. cbn [shape0 exc_bind ok].
  replace (Z.of_nat (length (x :: y :: l)) =? 1) with false.
  - cbn [comprehension]. rewrite peak_detect_scalar. reflexivity.
  - symmetry. apply Z.eqb_neq. cbn [length]. lia.
Qed.

Lemma peak_detect_empty (f : ndarray -> Z -> exc (list Z)) (rate : Z) :
  peak_detect f rate (Vector []) = throw ValueError.
Proof. simp peak_detect. reflexivity. Qed.

Section Facts.

Variable find_peaks_cwt : ndarray -> Z -> exc (list Z).

Lemma is_peak_false (seis : option (list Z)) (peak_index : Z) (self : EarthquakeDetector) :
  is_peak seis peak_index self
  = (ok false, snd (emit (IsPeakQuery seis peak_index) self)).
Proof. reflexivity. Qed.

(** The loop stops at the first seismograph, which it has asked. *)
Lemma all_show_peak_cons (seis : option (list Z)) (rest : list (option (list Z)))
    (peak_index : Z) (self : EarthquakeDetector) :
  all_show_peak (seis :: rest) peak_index self
  = (ok false, snd (emit (IsPeakQuery seis peak_index) self)).
Proof. reflexivity. Qed.

(** The peak search reads the detector and leaves it as it is. *)
Lemma candidate_peak_index_pure (seismograph_id : Z) (self : EarthquakeDetector) :
  snd (candidate_peak_index find_peaks_cwt seismograph_id self) = self.
Proof.
  unfold candidate_peak_index, bind, get, lift, ret. cbn.
  destruct (getitem (seismographs self) seismograph_id) as [e | [history |]]; cbn;
    try reflexivity.
  destruct (peak_detect _ _ _); reflexivity.
Qed.

Lemma keeps_refl (self : EarthquakeDetector) : keeps self self.
Proof. split; reflexivity. Qed.

Lemma keeps_trans (a b c : EarthquakeDetector) : keeps a b -> keeps b c -> keeps a c.
Proof.
  intros [H1 H2 H3 H4 H5] [K1 K2 K3 K4 K5].
  split; etransitivity; eassumption.
Qed.

Lemma store_samples_keeps (seismograph_id : Z) (samples : list Z)
    (self : EarthquakeDetector) :
  keeps self (snd (store_samples seismograph_id samples self)).
Proof.
  unfold store_samples, bind, get, lift. cbn.
  destruct (getitem (seismographs self) seismograph_id) as [e | entry]; cbn;
    [apply keeps_refl |].
  destruct (truth entry) as [e | [|]]; cbn; [apply keeps_refl | |].
  - apply keeps_refl.
  - destruct (setitem _ _ _) as [e | updated] eqn:Hset; cbn; [apply keeps_refl |].
    split; cbn; try reflexivity. eapply setitem_length, Hset.
Qed.

Lemma confirm_peak_keeps (peak_index : Z) (self : EarthquakeDetector) :
  seismographs self <> [] -> keeps self (snd (confirm_peak peak_index self)).
Proof.
  intros Hne. unfold confirm_peak, bind, get. cbn.
  destruct (py_in peak_index (confirmed_peak_indices self)); cbn; [apply keeps_refl |].
  destruct (seismographs self) as [| seis rest] eqn:Hs; [congruence |].
  rewrite all_show_peak_cons. cbn. split; reflexivity.
Qed.

Lemma check_for_quake_keeps (seismograph_id : Z) (self : EarthquakeDetector) :
  keeps self (snd (check_for_quake find_peaks_cwt seismograph_id self)).
Proof.
  unfold check_for_quake, bind.
  pose proof (candidate_peak_index_pure seismograph_id self) as Hpure.
  destruct (candidate_peak_index find_peaks_cwt seismograph_id self) as [[e | idx] mid] eqn:Hc;
    cbn in Hpure; subst mid; [apply keeps_refl |].
  apply confirm_peak_keeps. intros Hnil.
  unfold candidate_peak_index, bind, get, lift in Hc. cbn in Hc.
  rewrite Hnil, getitem_nil in Hc. discriminate.
Qed.

Lemma new_samples_keeps (seismograph_id : Z) (samples : list Z)
    (self : EarthquakeDetector) :
  keeps self (snd (new_samples find_peaks_cwt seismograph_id samples self)).
Proof.
  unfold new_samples, bind.
  pose proof (store_samples_keeps seismograph_id samples self) as Hstore.
  destruct (store_samples seismograph_id samples self) as [[e | []] mid]; cbn in *;
    [exact Hstore |].
  eapply keeps_trans; [exact Hstore | apply check_for_quake_keeps].
Qed.

Lemma run_keeps (calls : list (Z * list Z)) (self : EarthquakeDetector) :
  keeps self (run find_peaks_cwt calls self).
Proof.
  revert self. induction calls as [| [seismograph_id samples] rest IH]; intros self; cbn.
  - apply keeps_refl.
  - eapply keeps_trans; [apply new_samples_keeps | apply IH].
Qed.

End Facts.

(** ** The corroboration stub and what follows from it *)

(** C2: on a detector built with at least one seismograph, whatever the
    ingestion calls and whatever the peak finder does, the alert callback is
    never invoked and the ledger of confirmed peak indices stays empty;
    [is_peak] answers false for every seismograph, so the loop over the
    seismographs always ends with [true_peak] false. *)
Theorem alert_never_invoked (find_peaks_cwt : ndarray -> Z -> exc (list Z))
    (seismograph_count sample_rate_hz : Z) (calls : list (Z * list Z)) :
  1 <= seismograph_count ->
  let final := run find_peaks_cwt calls (init seismograph_count sample_rate_hz) in
  alert_count final = 0%nat
  /\ confirmed_peak_indices final = []
  /\ (forall seis peak_index self, fst (is_peak seis peak_index self) = ok false)
  /\ (forall peak_index, fst (all_show_peak (seismographs final) peak_index final) = ok false).
Proof.
  intros Hcount final.
  destruct (run_keeps find_peaks_cwt calls (init seismograph_count sample_rate_hz))
    as [Hlen _ _ Hledger Halerts].
  fold final in Hlen, Hledger, Halerts.
  repeat split.
  - rewrite Halerts. reflexivity.
  - rewrite Hledger. reflexivity.
  - intros peak_index.
    destruct (seismographs final) as [| seis rest] eqn:Hs.
    + cbn in Hlen. rewrite repeat_length in Hlen. lia.
    + reflexivity.
Qed.

Lemma alert_never_invoked_witness :
  let final := run finds_first [(0, [7]); (1, pulse); (0, [3])] (init 2 1) in
  alert_count final = 0%nat
  /\ confirmed_peak_indices final = []
  /\ (forall seis peak_index self, fst (is_peak seis peak_index self) = ok false)
  /\ (forall peak_index, fst (all_show_peak (seismographs final) peak_index final) = ok false).
Proof.
  apply (alert_never_invoked finds_first 2 1 [(0, [7]); (1, pulse); (0, [3])]). lia.
Defined.

(** C4: on a one-dimensional array of two or more samples [peak_detect]
    returns no index: the comparison [dim == 1] is on the length, the
    recursive branch hands a numpy scalar to [peak_detect], and that raises
    [IndexError].  So [check_for_quake] raises on every window of two or more
    samples, and leaves the detector as it found it. *)
Theorem peak_detect_fails_on_real_window (find_peaks_cwt : ndarray -> Z -> exc (list Z))
    (rate : Z) (window : list Z) :
  (2 <= length window)%nat ->
  peak_detect find_peaks_cwt rate (Vector window) = throw IndexError
  /\ forall self seismograph_id history,
       sample_rate self = rate ->
       getitem (seismographs self) seismograph_id = ok (Some history) ->
       slice_from (- month_window_size self) history = window ->
       check_for_quake find_peaks_cwt seismograph_id self = (throw IndexError, self).
Proof.
  intros Hlen.
  assert (Hpeak : peak_detect find_peaks_cwt rate (Vector window) = throw IndexError).
  { destruct window as [| x [| y rest]]; cbn in Hlen; try lia. apply peak_detect_cons2. }
  split; [exact Hpeak |].
  intros self seismograph_id history Hrate Hget Hwin.
  unfold check_for_quake, candidate_peak_index, bind, get, lift. cbn.
  rewrite Hget. cbn. rewrite Hwin, Hrate, Hpeak. reflexivity.
Qed.

Lemma peak_detect_fails_on_real_window_witness :
  let self := snd (store_samples 0 [3; 9] (init 1 1)) in
  peak_detect finds_first 1 (Vector [3; 9]) = throw IndexError
  /\ check_for_quake finds_first 0 self = (throw IndexError, self).
Proof.
  intros self.
  destruct (peak_detect_fails_on_real_window finds_first 1 [3; 9]) as [Hpeak Hcheck].
  - cbn. lia.
  - split; [exact Hpeak |].
    apply (Hcheck self 0 [3; 9]); reflexivity.
Defined.



(** ** Storing a batch *)

Lemma getitem_ok {A : Type} (l : list A) (i : Z) (a : A) :
  getitem l i = ok a ->
  exists k, norm_index (length l) i = ok k /\ l !! k = Some a.
Proof.
  unfold getitem, exc_bind, ok.
  destruct (norm_index (length l) i) as [e | k]; [discriminate |].
  destruct (l !! k) as [b |] eqn:Hk; [| discriminate].
  intros [= <-]. exists k. split; [reflexivity | exact Hk].
Qed.

Lemma getitem_insert {A : Type} (l : list A) (i : Z) (k : nat) (a : A) :
  norm_index (length l) i = ok k -> getitem (<[k := a]> l) i = ok a.
Proof.
  intros Hk. unfold getitem. rewrite length_insert, Hk. cbn.
  rewrite list_lookup_insert_eq; [reflexivity |].
  eapply norm_index_range, Hk.
Qed.

Lemma confirm_peak_seismographs (peak_index : Z) (self : EarthquakeDetector) :
  seismographs (snd (confirm_peak peak_index self)) = seismographs self.
Proof.
  unfold confirm_peak, bind, get. cbn.
  destruct (py_in peak_index (confirmed_peak_indices self)); cbn; [reflexivity |].
  generalize (seismographs self) at 1. intros seis_list.
  assert (Hloop : forall l d,
             seismographs (snd (all_show_peak l peak_index d)) = seismographs d
             /\ exists b, fst (all_show_peak l peak_index d) = ok b).
  { intros [| seis rest] d; cbn; eauto. }
  destruct (Hloop seis_list self) as [Hs [b Hb]].
  destruct (all_show_peak seis_list peak_index self) as [r mid]. cbn in Hs, Hb. subst r.
  destruct b; cbn; exact Hs.
Qed.

Lemma check_for_quake_seismographs (f : ndarray -> Z -> exc (list Z))
    (seismograph_id : Z) (self : EarthquakeDetector) :
  seismographs (snd (check_for_quake f seismograph_id self)) = seismographs self.
Proof.
  unfold check_for_quake, bind.
  pose proof (candidate_peak_index_pure f seismograph_id self) as Hpure.
  destruct (candidate_peak_index f seismograph_id self) as [[e | idx] mid];
    cbn in Hpure; subst mid; [reflexivity |].
  apply confirm_peak_seismographs.
Qed.

(** C3: a channel with a history is not extended by [new_samples].  Whatever
    the non-empty batch, the history after the call is not the old history
    followed by the batch; on a history of two or more samples the call
    raises [ValueError] at the truth test of the array and changes nothing. *)
Theorem new_samples_does_not_extend (find_peaks_cwt : ndarray -> Z -> exc (list Z))
    (self : EarthquakeDetector) (seismograph_id : Z) (history samples : list Z) :
  getitem (seismographs self) seismograph_id = ok (Some history) ->
  history <> [] ->
  samples <> [] ->
  getitem (seismographs (snd (new_samples find_peaks_cwt seismograph_id samples self)))
    seismograph_id <> ok (Some (history ++ samples))
  /\ ((2 <= length history)%nat ->
      new_samples find_peaks_cwt seismograph_id samples self = (throw ValueError, self)).
Proof.
  intros Hget Hhist Hsamples.
  assert (Hsame : ok (Some history) <> ok (Some (history ++ samples))).
  { intros [= Heq]. apply (f_equal length) in Heq. rewrite length_app in Heq.
    destruct samples; [congruence | cbn in Heq; lia]. }
  assert (Hnew : ok (Some samples) <> ok (Some (history ++ samples))).
  { intros [= Heq]. apply (f_equal length) in Heq. rewrite length_app in Heq.
    destruct history; [congruence | cbn in Heq; lia]. }
  destruct history as [| x [| y rest]]; [congruence | |].
  - split; [| cbn; lia].
    unfold new_samples, store_samples, bind, get, lift. cbn. rewrite Hget. cbn.
    destruct (negb (x =? 0)); cbn.
    + rewrite Hget. exact Hsame.
    + destruct (getitem_ok _ _ _ Hget) as [k [Hk _]].
      unfold setitem. rewrite Hk. cbn.
      match goal with
      | |- context [check_for_quake ?f ?i ?d] =>
          pose proof (check_for_quake_seismographs f i d) as Hkeep;
          destruct (check_for_quake f i d) as [r after]
      end.
      cbn in Hkeep |- *. rewrite Hkeep, (getitem_insert _ _ _ _ Hk). exact Hnew.
  - assert (Hraise : new_samples find_peaks_cwt seismograph_id samples self
                     = (throw ValueError, self)).
    { unfold new_samples, store_samples, bind, get, lift. cbn. rewrite Hget. reflexivity. }
    split; [| intros _; exact Hraise].
    rewrite Hraise. cbn. rewrite Hget. exact Hsame.
Qed.

Lemma new_samples_does_not_extend_witness :
  let self := snd (new_samples finds_first 0 [1; 2] (init 1 1)) in
  getitem (seismographs (snd (new_samples finds_first 0 [3; 4] self))) 0
    <> ok (Some ([1; 2] ++ [3; 4]))
  /\ ((2 <= length [1; 2])%nat ->
      new_samples finds_first 0 [3; 4] self = (throw ValueError, self)).
Proof.
  intros self.
  apply (new_samples_does_not_extend finds_first self 0 [1; 2] [3; 4]).
  - reflexivity.
  - discriminate.
  - discriminate.
Defined.

(** ** Windows without a peak, and short histories *)

(** C8: a window in which nothing stands out does not yield a "no peak"
    result.  On an empty window and on a one-sample window where the peak
    finder reports nothing, [max] of the empty list raises [ValueError]; on a
    flat window of three samples the recursive branch raises [IndexError].  The
    exception leaves [new_samples] through [check_for_quake]. *)
Theorem no_peak_raises (find_peaks_cwt : ndarray -> Z -> exc (list Z)) (rate : Z) :
  peak_detect find_peaks_cwt rate (Vector []) = throw ValueError
  /\ peak_detect find_peaks_cwt rate (Vector [0; 0; 0]) = throw IndexError
  /\ peak_detect finds_nothing rate (Vector [0]) = throw ValueError
  /\ fst (new_samples find_peaks_cwt 0 [0; 0; 0] (init 1 1)) = throw IndexError
  /\ fst (new_samples finds_nothing 0 [0] (init 1 1)) = throw ValueError.
Proof.
  split; [apply peak_detect_empty |].
  split; [apply peak_detect_cons2 |].
  split; [simp peak_detect; reflexivity |].
  split; reflexivity.
Qed.

(** C9: the first batch given to a channel without history does not end
    quietly.  A batch of two samples raises [IndexError], an empty batch raises
    [ValueError], both after the batch has been stored; a batch of one sample in
    which the peak finder reports a peak goes on to ask the seismographs. *)
Theorem first_batch_raises (find_peaks_cwt : ndarray -> Z -> exc (list Z)) :
  new_samples find_peaks_cwt 0 [1; 2] (init 1 1)
  = (throw IndexError, snd (store_samples 0 [1; 2] (init 1 1)))
  /\ new_samples find_peaks_cwt 0 [] (init 1 1)
     = (throw ValueError, snd (store_samples 0 [] (init 1 1)))
  /\ seismographs (snd (store_samples 0 [1; 2] (init 1 1))) = [Some [1; 2]]
  /\ log (snd (new_samples finds_first 0 [7] (init 1 1)))
     = [IsPeakQuery (Some [7]) (-2591999)].
Proof.
  repeat split; reflexivity.
Qed.

(** ** The shared pulse *)

(** C1: the scenario of the specification, three seismographs at 1 Hz each
    given the same ten samples with a pulse at index 5, raises no alert and
    confirms nothing: every call raises [IndexError] in the peak search.  Two
    seismographs given the same one-sample batch, with a peak finder that
    reports a peak, raise no alert either: both are asked, neither agrees. *)
Theorem shared_pulse_raises_no_alert (find_peaks_cwt : ndarray -> Z -> exc (list Z)) :
  let final := run find_peaks_cwt [(0, pulse); (1, pulse); (2, pulse)] (init 3 1) in
  let small := run finds_first [(0, [9]); (1, [9])] (init 2 1) in
  seismographs final = [Some pulse; Some pulse; Some pulse]
  /\ fst (new_samples find_peaks_cwt 0 pulse (init 3 1)) = throw IndexError
  /\ alert_count final = 0%nat
  /\ confirmed_peak_indices final = []
  /\ seismographs small = [Some [9]; Some [9]]
  /\ log small = [IsPeakQuery (Some [9]) (-2591999); IsPeakQuery (Some [9]) (-2591999)]
  /\ alert_count small = 0%nat.
Proof. repeat split; reflexivity. Qed.

(** ** Rejected calls *)

Lemma store_samples_negative_id (seismograph_id : Z) (samples : list Z)
    (self : EarthquakeDetector) :
  - Z.of_nat (length (seismographs self)) <= seismograph_id < 0 ->
  store_samples seismograph_id samples self
  = store_samples (Z.of_nat (length (seismographs self)) + seismograph_id) samples self.
Proof.
  intros Hneg. unfold store_samples, getitem, setitem, bind, get, lift. cbn -[norm_index].
  rewrite (norm_index_negative _ _ Hneg). reflexivity.
Qed.

Lemma check_for_quake_negative_id (f : ndarray -> Z -> exc (list Z))
    (seismograph_id : Z) (self : EarthquakeDetector) :
  - Z.of_nat (length (seismographs self)) <= seismograph_id < 0 ->
  check_for_quake f seismograph_id self
  = check_for_quake f (Z.of_nat (length (seismographs self)) + seismograph_id) self.
Proof.
  intros Hneg. unfold check_for_quake, candidate_peak_index, getitem, bind, get, lift.
  cbn -[norm_index].
  rewrite (norm_index_negative _ _ Hneg). reflexivity.
Qed.

(** C6, as the code has it: [new_samples] raises [IndexError] when the id is
    outside [-N, N), and then stores nothing and runs no check; an id in
    [-N, 0) is the channel [N + id]; the batch itself is not examined, and on a
    channel without history any batch, the empty one included, becomes the
    history. *)
Theorem new_samples_rejects_only_far_ids (find_peaks_cwt : ndarray -> Z -> exc (list Z))
    (self : EarthquakeDetector) (seismograph_id : Z) (samples : list Z) :
  let n := Z.of_nat (length (seismographs self)) in
  (seismograph_id < - n \/ n <= seismograph_id ->
   new_samples find_peaks_cwt seismograph_id samples self = (throw IndexError, self))
  /\ (- n <= seismograph_id < 0 ->
      new_samples find_peaks_cwt seismograph_id samples self
      = new_samples find_peaks_cwt (n + seismograph_id) samples self)
  /\ (getitem (seismographs self) seismograph_id = ok None ->
      getitem (seismographs (snd (new_samples find_peaks_cwt seismograph_id samples self)))
        seismograph_id = ok (Some samples)).
Proof.
  intros n. split; [| split].
  - intros Hfar. unfold new_samples, store_samples, getitem, bind, get, lift.
    cbn -[norm_index].
    rewrite (norm_index_outside _ _ Hfar). reflexivity.
  - intros Hneg. unfold new_samples, bind.
    rewrite (store_samples_negative_id _ _ _ Hneg). fold n.
    pose proof (store_samples_keeps (n + seismograph_id) samples self) as [Hlen _ _ _ _].
    destruct (store_samples (n + seismograph_id) samples self) as [[e | []] mid];
      [reflexivity |].
    cbn in Hlen. rewrite check_for_quake_negative_id; rewrite Hlen; [reflexivity | exact Hneg].
  - intros Hget. destruct (getitem_ok _ _ _ Hget) as [k [Hk _]].
    unfold new_samples, store_samples, bind, get, lift. cbn. rewrite Hget. cbn.
    unfold setitem. rewrite Hk. cbn.
    match goal with
    | |- context [check_for_quake ?f ?i ?d] =>
        pose proof (check_for_quake_seismographs f i d) as Hkeep;
        destruct (check_for_quake f i d) as [r after]
    end.
    cbn in Hkeep |- *. rewrite Hkeep. apply getitem_insert, Hk.
Qed.

Lemma new_samples_rejects_only_far_ids_witness :
  new_samples finds_first 2 [7] (init 2 1) = (throw IndexError, init 2 1)
  /\ new_samples finds_first (-3) [7] (init 2 1) = (throw IndexError, init 2 1)
  /\ new_samples finds_first (-1) [7] (init 2 1) = new_samples finds_first 1 [7] (init 2 1)
  /\ getitem (seismographs (snd (new_samples finds_first 0 [] (init 2 1)))) 0 = ok (Some []).
Proof.
  split; [| split; [| split]].
  - destruct (new_samples_rejects_only_far_ids finds_first (init 2 1) 2 [7])
      as [Hfar _].
    apply Hfar. right. vm_compute. discriminate.
  - destruct (new_samples_rejects_only_far_ids finds_first (init 2 1) (-3) [7])
      as [Hfar _].
    apply Hfar. left. reflexivity.
  - destruct (new_samples_rejects_only_far_ids finds_first (init 2 1) (-1) [7])
      as [_ [Hneg _]].
    apply Hneg. split; [vm_compute; discriminate | reflexivity].
  - destruct (new_samples_rejects_only_far_ids finds_first (init 2 1) 0 [])
      as [_ [_ Hfresh]].
    apply Hfresh. reflexivity.
Defined.

(** The claim C6 fails as stated: the id [-1] is outside [0, N), yet the call
    ends normally, stores the batch in the last channel and runs the check; and
    an empty batch is stored before anything raises. *)
Lemma negative_id_and_empty_batch_are_stored :
  new_samples finds_first (-1) [7] (init 1 1)
  = (ok tt,
     {| seismographs := [Some [7]];
        sample_rate := 1;
        month_window_size := 2592000;
        confirmed_peak_indices := [];
        log := [IsPeakQuery (Some [7]) (-2591999)] |})
  /\ seismographs (init 1 1) = [None]
  /\ seismographs (snd (new_samples finds_first 0 [] (init 1 1))) = [Some []].
Proof. repeat split; reflexivity. Qed.

(** ** The peak search on a one-sample window *)

Lemma comprehension_ok {A B : Type} (f : A -> exc B) (l : list A) (bs : list B) (a : A) :
  comprehension f l = ok bs -> In a l -> exists b, f a = ok b.
Proof.
  revert bs. induction l as [| a' rest IH]; intros bs; cbn; [intros _ [] |].
  destruct (f a') as [e | b] eqn:Hfa; cbn; [discriminate |].
  destruct (comprehension f rest) as [e | bs'] eqn:Hrest; cbn; [discriminate |].
  intros _ [<- | Hin]; [eauto | eapply IH; [reflexivity | exact Hin]].
Qed.

Lemma getitem_In {A : Type} (l : list A) (i : Z) (a : A) : getitem l i = ok a -> In a l.
Proof.
  intros Hget. destruct (getitem_ok _ _ _ Hget) as [k [_ Hk]].
  apply list_elem_of_In. eapply list_elem_of_lookup_2, Hk.
Qed.

(** The only indices a one-sample array accepts are 0 and -1. *)
Lemma nd_getitem_one (x j : Z) :
  nd_getitem (Vector [x]) j = if (j =? 0) || (j =? -1) then ok x else throw IndexError.
Proof.
  unfold nd_getitem, getitem, norm_index. cbn [length].
  destruct (Z.eq_dec j 0) as [-> | H0]; [reflexivity |].
  destruct (Z.eq_dec j (-1)) as [-> | H1]; [reflexivity |].
  replace (j =? 0) with false by (symmetry; apply Z.eqb_neq; exact H0).
  replace (j =? -1) with false by (symmetry; apply Z.eqb_neq; exact H1).
  destruct (Z.leb_spec 0 j), (Z.ltb_spec j (Z.of_nat 1)), (Z.leb_spec (- Z.of_nat 1) j),
    (Z.ltb_spec j 0); cbn; try reflexivity; lia.
Qed.

Lemma peak_detect_one (f : ndarray -> Z -> exc (list Z)) (rate x : Z) :
  peak_detect f rate (Vector [x])
  = (peak_inds <~ f (Vector [x]) (rate * 60 * 60) ;;
     peaks <~ comprehension (nd_getitem (Vector [x])) peak_inds ;;
     top <~ py_max peaks ;;
     k <~ py_list_index peaks top ;;
     getitem peak_inds k).
Proof. simp peak_detect. reflexivity. Qed.

(** A normal return of [peak_detect] means a one-sample array and an index
    that array accepts. *)
Lemma peak_detect_ok_one_sample (f : ndarray -> Z -> exc (list Z)) (rate : Z)
    (samples : ndarray) (r : Z) :
  peak_detect f rate samples = ok r ->
  exists x peak_inds,
    samples = Vector [x]
    /\ f (Vector [x]) (rate * 60 * 60) = ok peak_inds
    /\ In r peak_inds
    /\ nd_getitem (Vector [x]) r = ok x.
Proof.
  destruct samples as [z | [| x [| y rest]]].
  - rewrite peak_detect_scalar. discriminate.
  - rewrite peak_detect_empty. discriminate.
  - rewrite peak_detect_one.
    destruct (f (Vector [x]) (rate * 60 * 60)) as [e | peak_inds] eqn:Hf; cbn;
      [discriminate |].
    destruct (comprehension (nd_getitem (Vector [x])) peak_inds) as [e | peaks] eqn:Hc; cbn;
      [discriminate |].
    destruct (py_max peaks) as [e | top]; cbn; [discriminate |].
    destruct (py_list_index peaks top) as [e | k]; cbn; [discriminate |].
    intros Hget. apply getitem_In in Hget.
    exists x, peak_inds. repeat split; try assumption; try reflexivity.
    destruct (comprehension_ok _ _ _ r Hc Hget) as [v Hv].
    change (nd_getitem (Vector [x]) r = ok x).
    rewrite nd_getitem_one in Hv |- *.
    destruct ((r =? 0) || (r =? -1)); [reflexivity | discriminate].
  - rewrite peak_detect_cons2. discriminate.
Qed.

Lemma comprehension_one_sample (x : Z) (l : list Z) :
  Forall (fun j => j = 0 \/ j = -1) l ->
  comprehension (nd_getitem (Vector [x])) l = ok (map (fun _ => x) l).
Proof.
  induction 1 as [| j rest Hj _ IH]; [reflexivity |].
  cbn [comprehension map]. rewrite nd_getitem_one, IH.
  destruct Hj as [-> | ->]; reflexivity.
Qed.

Lemma comprehension_out_of_range (x : Z) (l : list Z) :
  Exists (fun j => j <> 0 /\ j <> -1) l ->
  comprehension (nd_getitem (Vector [x])) l = throw IndexError.
Proof.
  induction l as [| j rest IH]; intros Hex; [inversion Hex |].
  cbn [comprehension]. rewrite nd_getitem_one.
  destruct ((j =? 0) || (j =? -1)) eqn:Hj; [| reflexivity].
  cbn. rewrite IH; [reflexivity |].
  inversion Hex as [? ? [H0 H1] | ? ? Hrest]; subst; [| exact Hrest].
  apply orb_true_iff in Hj as [Hj | Hj]; apply Z.eqb_eq in Hj; contradiction.
Qed.

Lemma fold_left_max_same (x : Z) (l : list Z) :
  fold_left Z.max (map (fun _ => x) l) x = x.
Proof.
  induction l as [| j rest IH]; [reflexivity |].
  cbn. rewrite Z.max_id. exact IH.
Qed.

(** X1: [peak_detect] returns an index only on an array of exactly one
    sample, and the index is one the peak finder reported for it, 0 or -1. *)
Theorem peak_detect_returns_only_on_one_sample (find_peaks_cwt : ndarray -> Z -> exc (list Z))
    (rate : Z) (samples : ndarray) (r : Z) :
  peak_detect find_peaks_cwt rate samples = ok r ->
  exists x peak_inds,
    samples = Vector [x]
    /\ find_peaks_cwt (Vector [x]) (rate * 60 * 60) = ok peak_inds
    /\ In r peak_inds
    /\ (r = 0 \/ r = -1).
Proof.
  intros Hok.
  destruct (peak_detect_ok_one_sample _ _ _ _ Hok) as [x [peak_inds [Hs [Hf [Hin Hget]]]]].
  exists x, peak_inds. repeat split; try assumption.
  rewrite nd_getitem_one in Hget.
  destruct (Z.eqb_spec r 0) as [-> | _]; [left; reflexivity |].
  destruct (Z.eqb_spec r (-1)) as [-> | _]; [right; reflexivity | discriminate].
Qed.

Lemma peak_detect_returns_only_on_one_sample_witness :
  exists x peak_inds,
    Vector [7] = Vector [x]
    /\ finds_first (Vector [x]) (1 * 60 * 60) = ok peak_inds
    /\ In 0 peak_inds
    /\ (0 = 0 \/ 0 = -1).
Proof.
  apply (peak_detect_returns_only_on_one_sample finds_first 1 (Vector [7]) 0).
  reflexivity.
Defined.

(** X2: on a one-sample array, when every index the peak finder reports is 0
    or -1, [peak_detect] returns the first index reported: all the peaks have
    the same height, and [index] finds the maximum at position 0. *)
Theorem peak_detect_one_sample_first_reported (find_peaks_cwt : ndarray -> Z -> exc (list Z))
    (rate x i : Z) (rest : list Z) :
  find_peaks_cwt (Vector [x]) (rate * 60 * 60) = ok (i :: rest) ->
  Forall (fun j => j = 0 \/ j = -1) (i :: rest) ->
  peak_detect find_peaks_cwt rate (Vector [x]) = ok i.
Proof.
  intros Hf Hvalid.
  rewrite peak_detect_one, Hf. cbn [exc_bind ok].
  rewrite (comprehension_one_sample x _ Hvalid). cbn [exc_bind ok map py_max].
  rewrite fold_left_max_same. cbn [exc_bind ok py_list_index].
  rewrite Z.eqb_refl. reflexivity.
Qed.

Lemma peak_detect_one_sample_first_reported_witness :
  peak_detect (fun _ _ => ok [-1; 0; -1]) 2 (Vector [5]) = ok (-1).
Proof.
  apply (peak_detect_one_sample_first_reported (fun _ _ => ok [-1; 0; -1]) 2 5 (-1) [0; -1]).
  - reflexivity.
  - repeat (apply Forall_cons; split; [first [left; reflexivity | right; reflexivity] |]).
    apply Forall_nil. exact I.
Defined.

(** X3: on a one-sample array, when the peak finder reports an index other
    than 0 and -1, reading the sample at that index raises [IndexError]. *)
Theorem peak_detect_index_out_of_range (find_peaks_cwt : ndarray -> Z -> exc (list Z))
    (rate x : Z) (peak_inds : list Z) :
  find_peaks_cwt (Vector [x]) (rate * 60 * 60) = ok peak_inds ->
  Exists (fun j => j <> 0 /\ j <> -1) peak_inds ->
  peak_detect find_peaks_cwt rate (Vector [x]) = throw IndexError.
Proof.
  intros Hf Hbad.
  rewrite peak_detect_one, Hf. cbn [exc_bind ok].
  rewrite (comprehension_out_of_range x _ Hbad). reflexivity.
Qed.

Lemma peak_detect_index_out_of_range_witness :
  peak_detect (fun _ _ => ok [0; 1]) 1 (Vector [5]) = throw IndexError.
Proof.
  apply (peak_detect_index_out_of_range (fun _ _ => ok [0; 1]) 1 5 [0; 1]).
  - reflexivity.
  - right. left. split; discriminate.
Defined.

(** ** Ingestion: what a call stores, asks and returns *)

Lemma store_samples_log (seismograph_id : Z) (samples : list Z) (self : EarthquakeDetector) :
  log (snd (store_samples seismograph_id samples self)) = log self.
Proof.
  unfold store_samples, bind, get, lift. cbn.
  destruct (getitem (seismographs self) seismograph_id) as [e | entry]; cbn; [reflexivity |].
  destruct (truth entry) as [e | [|]]; cbn; [reflexivity | |].
  - reflexivity.
  - destruct (setitem _ _ _); reflexivity.
Qed.

(** When [store_samples] returns, the batch is the entry of the channel. *)
Lemma store_samples_ok (seismograph_id : Z) (samples : list Z)
    (self stored : EarthquakeDetector) :
  store_samples seismograph_id samples self = (ok tt, stored) ->
  exists entry,
    getitem (seismographs self) seismograph_id = ok entry
    /\ truth entry = ok false
    /\ getitem (seismographs stored) seismograph_id = ok (Some samples)
    /\ sample_rate stored = sample_rate self
    /\ month_window_size stored = month_window_size self.
Proof.
  unfold store_samples, bind, get, lift, set_seismographs. cbn.
  destruct (getitem (seismographs self) seismograph_id) as [e | entry] eqn:Hget; cbn;
    [discriminate |].
  destruct (truth entry) as [e | [|]] eqn:Htruth; cbn; [discriminate | |].
  - discriminate.
  - destruct (getitem_ok _ _ _ Hget) as [k [Hk _]].
    unfold setitem. rewrite Hk. cbn. intros [= <-]. cbn.
    exists entry. repeat split; try reflexivity; try assumption. apply getitem_insert, Hk.
Qed.

(** The seismographs as [store_samples] leaves them. *)
Lemma store_samples_seismographs (seismograph_id : Z) (samples : list Z)
    (self : EarthquakeDetector) :
  seismographs (snd (store_samples seismograph_id samples self)) = seismographs self
  \/ exists k, norm_index (length (seismographs self)) seismograph_id = ok k
               /\ seismographs (snd (store_samples seismograph_id samples self))
                  = <[k := Some samples]> (seismographs self).
Proof.
  unfold store_samples, bind, get, lift, set_seismographs. cbn.
  destruct (getitem (seismographs self) seismograph_id) as [e | entry]; cbn;
    [left; reflexivity |].
  destruct (truth entry) as [e | [|]]; cbn; [left; reflexivity | |].
  - left. reflexivity.
  - unfold setitem.
    destruct (norm_index (length (seismographs self)) seismograph_id) as [e | k]; cbn;
      [left; reflexivity |].
    right. exists k. split; reflexivity.
Qed.

(** X4: [new_samples] returns without an exception only when the window taken
    from the batch, its last [month_window_size] samples, holds exactly one
    sample; the batch is then the whole history of the channel. *)
Theorem new_samples_returns_only_on_one_sample (find_peaks_cwt : ndarray -> Z -> exc (list Z))
    (self : EarthquakeDetector) (seismograph_id : Z) (samples : list Z) :
  fst (new_samples find_peaks_cwt seismograph_id samples self) = ok tt ->
  (exists x, slice_from (- month_window_size self) samples = [x])
  /\ getitem (seismographs (snd (new_samples find_peaks_cwt seismograph_id samples self)))
       seismograph_id = ok (Some samples).
Proof.
  unfold new_samples, bind.
  destruct (store_samples seismograph_id samples self) as [[e | []] stored] eqn:Hstore;
    [discriminate |].
  destruct (store_samples_ok _ _ _ _ Hstore) as [entry [_ [_ [Hget [_ Hw]]]]].
  pose proof (check_for_quake_seismographs find_peaks_cwt seismograph_id stored) as Hkeep.
  intros Hok. rewrite Hkeep. split; [| exact Hget].
  revert Hok. unfold check_for_quake, candidate_peak_index, bind, get, lift. cbn.
  rewrite Hget. cbn. rewrite Hw.
  destruct (peak_detect find_peaks_cwt (sample_rate stored)
              (Vector (slice_from (- month_window_size self) samples))) as [e | r] eqn:Hpeak;
    cbn; [discriminate |].
  intros _.
  destruct (peak_detect_ok_one_sample _ _ _ _ Hpeak) as [x [peak_inds [[= Hx] _]]].
  exists x. exact Hx.
Qed.

Lemma new_samples_returns_only_on_one_sample_witness :
  (exists x, slice_from (- month_window_size (init 1 1)) [7] = [x])
  /\ getitem (seismographs (snd (new_samples finds_first 0 [7] (init 1 1)))) 0
     = ok (Some [7]).
Proof.
  apply (new_samples_returns_only_on_one_sample finds_first (init 1 1) 0 [7]).
  reflexivity.
Defined.

(** X5: [new_samples] touches no channel but the one the id addresses: every
    other entry of [self.seismographs] is after the call what it was
    before, whether the call returns or raises. *)
Theorem new_samples_other_channels_untouched (find_peaks_cwt : ndarray -> Z -> exc (list Z))
    (self : EarthquakeDetector) (seismograph_id : Z) (samples : list Z) (j : nat) :
  (forall k, norm_index (length (seismographs self)) seismograph_id = ok k -> j <> k) ->
  seismographs (snd (new_samples find_peaks_cwt seismograph_id samples self)) !! j
  = seismographs self !! j.
Proof.
  intros Hother.
  assert (Hstore : seismographs (snd (store_samples seismograph_id samples self)) !! j
                   = seismographs self !! j).
  { destruct (store_samples_seismographs seismograph_id samples self) as [-> | [k [Hk ->]]];
      [reflexivity |].
    apply list_lookup_insert_ne. intros ->. exact (Hother _ Hk eq_refl). }
  unfold new_samples, bind.
  destruct (store_samples seismograph_id samples self) as [[e | []] stored];
    cbn in Hstore |- *; [exact Hstore |].
  rewrite check_for_quake_seismographs. exact Hstore.
Qed.

Lemma new_samples_other_channels_untouched_witness :
  seismographs
    (snd (new_samples finds_first (-1) pulse (snd (store_samples 0 [4] (init 2 1))))) !! 0%nat
  = seismographs (snd (store_samples 0 [4] (init 2 1))) !! 0%nat.
Proof.
  apply (new_samples_other_channels_untouched finds_first
           (snd (store_samples 0 [4] (init 2 1))) (-1) pulse 0).
  intros k Hk. vm_compute in Hk. injection Hk as <-. discriminate.
Defined.

(** X6: a history that consists of the single sample 0 counts as no history:
    the next batch replaces it instead of being appended. *)
Theorem zero_history_is_overwritten (find_peaks_cwt : ndarray -> Z -> exc (list Z))
    (self : EarthquakeDetector) (seismograph_id : Z) (samples : list Z) :
  getitem (seismographs self) seismograph_id = ok (Some [0]) ->
  getitem (seismographs (snd (new_samples find_peaks_cwt seismograph_id samples self)))
    seismograph_id = ok (Some samples).
Proof.
  intros Hget. destruct (getitem_ok _ _ _ Hget) as [k [Hk _]].
  unfold new_samples, store_samples, bind, get, lift. cbn. rewrite Hget. cbn.
  unfold setitem. rewrite Hk. cbn.
  match goal with
  | |- context [check_for_quake ?f ?i ?d] =>
      pose proof (check_for_quake_seismographs f i d) as Hkeep;
      destruct (check_for_quake f i d) as [r after]
  end.
  cbn in Hkeep |- *. rewrite Hkeep. apply getitem_insert, Hk.
Qed.

Lemma zero_history_is_overwritten_witness :
  getitem
    (seismographs (snd (new_samples finds_first 0 [8; 9] (snd (store_samples 0 [0] (init 1 1))))))
    0 = ok (Some [8; 9]).
Proof.
  apply (zero_history_is_overwritten finds_first (snd (store_samples 0 [0] (init 1 1))) 0 [8; 9]).
  reflexivity.
Defined.

(** X7: on a history of one sample other than 0, [new_samples] raises in
    [np.concatenate] and leaves the detector as it was: the batch is lost. *)
Theorem nonzero_sample_history_rejects_batch (find_peaks_cwt : ndarray -> Z -> exc (list Z))
    (self : EarthquakeDetector) (seismograph_id x : Z) (samples : list Z) :
  getitem (seismographs self) seismograph_id = ok (Some [x]) ->
  x <> 0 ->
  exists e, new_samples find_peaks_cwt seismograph_id samples self = (throw e, self).
Proof.
  intros Hget Hx.
  unfold new_samples, store_samples, bind, get, lift. cbn. rewrite Hget. cbn.
  replace (x =? 0) with false by (symmetry; apply Z.eqb_neq; exact Hx). cbn.
  eauto.
Qed.

Lemma nonzero_sample_history_rejects_batch_witness :
  exists e,
    new_samples finds_first 0 [8; 9] (snd (store_samples 0 [5] (init 1 1)))
    = (throw e, snd (store_samples 0 [5] (init 1 1))).
Proof.
  apply (nonzero_sample_history_rejects_batch finds_first
           (snd (store_samples 0 [5] (init 1 1))) 0 5 [8; 9]).
  - reflexivity.
  - discriminate.
Defined.

(** X8: a call of [new_samples] asks at most one seismograph for
    corroboration, and it is the first of the list, whichever channel the
    batch went to: the loop stops on its first answer.  Nothing else is added
    to the log. *)
Theorem new_samples_asks_first_seismograph_only
    (find_peaks_cwt : ndarray -> Z -> exc (list Z))
    (self : EarthquakeDetector) (seismograph_id : Z) (samples : list Z) :
  let after := snd (new_samples find_peaks_cwt seismograph_id samples self) in
  log after = log self
  \/ exists first rest peak_index,
       seismographs after = first :: rest
       /\ log after = IsPeakQuery first peak_index :: log self.
Proof.
  intros after. subst after. unfold new_samples, bind.
  pose proof (store_samples_log seismograph_id samples self) as Hlog.
  destruct (store_samples seismograph_id samples self) as [[e | []] stored];
    cbn in Hlog |- *; [left; exact Hlog |].
  unfold check_for_quake, bind.
  pose proof (candidate_peak_index_pure find_peaks_cwt seismograph_id stored) as Hpure.
  destruct (candidate_peak_index find_peaks_cwt seismograph_id stored) as [[e | idx] mid]
    eqn:Hcand; cbn in Hpure; subst mid; cbn; [left; exact Hlog |].
  unfold confirm_peak, bind, get. cbn.
  destruct (py_in idx (confirmed_peak_indices stored)); cbn; [left; exact Hlog |].
  destruct (seismographs stored) as [| first rest] eqn:Hs.
  - unfold candidate_peak_index, bind, get, lift in Hcand. cbn in Hcand.
    rewrite Hs, getitem_nil in Hcand. discriminate.
  - right. exists first, rest, idx. cbn. rewrite Hlog.
    split; [first [reflexivity | exact Hs] | reflexivity].
Qed.

(** X9: a detector built with no seismograph, a count of zero or less,
    rejects every call with [IndexError] and never changes. *)
Theorem empty_detector_rejects_every_call (find_peaks_cwt : ndarray -> Z -> exc (list Z))
    (seismograph_count sample_rate_hz : Z) (calls : list (Z * list Z)) :
  seismograph_count <= 0 ->
  (forall seismograph_id samples,
      new_samples find_peaks_cwt seismograph_id samples (init seismograph_count sample_rate_hz)
      = (throw IndexError, init seismograph_count sample_rate_hz))
  /\ run find_peaks_cwt calls (init seismograph_count sample_rate_hz)
     = init seismograph_count sample_rate_hz.
Proof.
  intros Hcount.
  assert (Hcall : forall seismograph_id samples,
             new_samples find_peaks_cwt seismograph_id samples
               (init seismograph_count sample_rate_hz)
             = (throw IndexError, init seismograph_count sample_rate_hz)).
  { intros seismograph_id samples.
    unfold new_samples, store_samples, bind, get, lift. cbn -[getitem].
    replace (Z.to_nat seismograph_count) with 0%nat by lia. cbn -[getitem].
    rewrite getitem_nil. reflexivity. }
  split; [exact Hcall |].
  induction calls as [| [seismograph_id samples] rest IH]; [reflexivity |].
  cbn [run]. rewrite Hcall. exact IH.
Qed.

Lemma empty_detector_rejects_every_call_witness :
  (forall seismograph_id samples,
      new_samples finds_first seismograph_id samples (init 0 1)
      = (throw IndexError, init 0 1))
  /\ run finds_first [(0, [7]); (-1, pulse)] (init 0 1) = init 0 1.
Proof.
  apply (empty_detector_rejects_every_call finds_first 0 1 [(0, [7]); (-1, pulse)]). lia.
Defined.

(** X10: the window [check_for_quake] cuts from a history.  With a positive
    window size it is the last [month_window_size] samples, or the whole
    history when that is shorter; with a window size of 0, a sample rate of 0,
    it is the whole history; with a negative window size, a negative rate, it
    is the history without its first [- month_window_size] samples. *)
Theorem window_of_history (w : Z) (history : list Z) :
  (0 < w ->
   slice_from (- w) history = drop (length history - Z.to_nat w) history
   /\ Z.of_nat (length (slice_from (- w) history)) = Z.min w (Z.of_nat (length history)))
  /\ (w = 0 -> slice_from (- w) history = history)
  /\ (w < 0 -> slice_from (- w) history = drop (Z.to_nat (- w)) history).
Proof.
  unfold slice_from. repeat split.
  - destruct (Z.ltb_spec (- w) 0); [| lia]. f_equal. lia.
  - destruct (Z.ltb_spec (- w) 0); [| lia]. rewrite length_drop. lia.
  - intros ->. destruct (Z.ltb_spec (- 0) 0); [lia |].
    replace (Z.to_nat (Z.min (- 0) (Z.of_nat (length history)))) with 0%nat by lia.
    reflexivity.
  - intros Hneg. destruct (Z.ltb_spec (- w) 0); [lia |].
    destruct (Z.le_gt_cases (- w) (Z.of_nat (length history))).
    + f_equal. lia.
    + rewrite !drop_ge by lia. reflexivity.
Qed.

Lemma window_of_history_witness :
  (slice_from (- 3) [1; 2; 3; 4; 5] = drop (length [1; 2; 3; 4; 5] - Z.to_nat 3) [1; 2; 3; 4; 5]
   /\ Z.of_nat (length (slice_from (- 3) [1; 2; 3; 4; 5]))
      = Z.min 3 (Z.of_nat (length [1; 2; 3; 4; 5])))
  /\ slice_from (- 0) [1; 2; 3] = [1; 2; 3]
  /\ slice_from (- -2) [1; 2; 3] = drop (Z.to_nat (- -2)) [1; 2; 3].
Proof.
  split; [| split].
  - destruct (window_of_history 3 [1; 2; 3; 4; 5]) as [Hpos _]. apply Hpos. lia.
  - destruct (window_of_history 0 [1; 2; 3]) as [_ [Hzero _]]. apply Hzero. reflexivity.
  - destruct (window_of_history (-2) [1; 2; 3]) as [_ [_ Hneg]]. apply Hneg. lia.
Defined.

(** X11: over any session the detector keeps its number of seismographs, its
    sample rate and its window size, which is thirty days of samples at that
    rate. *)
Theorem session_keeps_configuration (find_peaks_cwt : ndarray -> Z -> exc (list Z))
    (seismograph_count sample_rate_hz : Z) (calls : list (Z * list Z)) :
  let final := run find_peaks_cwt calls (init seismograph_count sample_rate_hz) in
  length (seismographs final) = Z.to_nat seismograph_count
  /\ sample_rate final = sample_rate_hz
  /\ month_window_size final = 2592000 * sample_rate final.
Proof.
  intros final.
  destruct (run_keeps find_peaks_cwt calls (init seismograph_count sample_rate_hz))
    as [Hlen Hrate Hwin _ _].
  fold final in Hlen, Hrate, Hwin.
  rewrite Hlen, Hwin, Hrate. cbn. rewrite repeat_length. repeat split; lia.
Qed.

(** X12: whatever the history and whatever the peak finder reports, the index
    a peak is filed under is [1 - month_window_size] or [- month_window_size]:
    the peak search returns only on a window of one sample, with offset 0 or
    -1.  The search leaves the detector unchanged. *)
Theorem candidate_peak_index_values (find_peaks_cwt : ndarray -> Z -> exc (list Z))
    (self after : EarthquakeDetector) (seismograph_id peak_index : Z) :
  candidate_peak_index find_peaks_cwt seismograph_id self = (ok peak_index, after) ->
  after = self
  /\ (peak_index = 1 - month_window_size self \/ peak_index = - month_window_size self).
Proof.
  intros Hcand.
  pose proof (candidate_peak_index_pure find_peaks_cwt seismograph_id self) as Hpure.
  rewrite Hcand in Hpure. cbn in Hpure. split; [exact Hpure |].
  revert Hcand. unfold candidate_peak_index, bind, get, lift, ret. cbn.
  destruct (getitem (seismographs self) seismograph_id) as [e | [history |]]; cbn;
    try discriminate.
  destruct (peak_detect find_peaks_cwt (sample_rate self)
              (Vector (slice_from (- month_window_size self) history))) as [e | r] eqn:Hpeak;
    cbn; [discriminate |].
  intros [= <- _].
  destruct (peak_detect_ok_one_sample _ _ _ _ Hpeak) as [x [peak_inds [[= Hx] [_ [_ Hr]]]]].
  rewrite Hx. rewrite nd_getitem_one in Hr. cbn [length].
  destruct (Z.eqb_spec r 0) as [H0 | H0]; [left; lia |].
  destruct (Z.eqb_spec r (-1)) as [H1 | H1]; [right; lia | discriminate].
Qed.

Lemma candidate_peak_index_values_witness :
  snd (store_samples 0 [7] (init 1 1)) = snd (store_samples 0 [7] (init 1 1))
  /\ (-2591999 = 1 - month_window_size (snd (store_samples 0 [7] (init 1 1)))
      \/ -2591999 = - month_window_size (snd (store_samples 0 [7] (init 1 1)))).
Proof.
  apply (candidate_peak_index_values finds_first
           (snd (store_samples 0 [7] (init 1 1))) (snd (store_samples 0 [7] (init 1 1)))
           0 (-2591999)).
  reflexivity.
Defined.

(** X13: an exception of the peak finder reaches the caller of [new_samples].
    On a channel without history and a batch whose window is one sample, the
    batch is stored, the exception leaves the call, and no seismograph is
    asked. *)
Theorem finder_exception_reaches_caller (find_peaks_cwt : ndarray -> Z -> exc (list Z))
    (self : EarthquakeDetector) (seismograph_id x : Z) (samples : list Z) (e : exn) :
  getitem (seismographs self) seismograph_id = ok None ->
  slice_from (- month_window_size self) samples = [x] ->
  find_peaks_cwt (Vector [x]) (sample_rate self * 60 * 60) = throw e ->
  let after := snd (new_samples find_peaks_cwt seismograph_id samples self) in
  fst (new_samples find_peaks_cwt seismograph_id samples self) = throw e
  /\ getitem (seismographs after) seismograph_id = ok (Some samples)
  /\ log after = log self.
Proof.
  intros Hget Hwin Hf after. subst after.
  destruct (getitem_ok _ _ _ Hget) as [k [Hk _]].
  unfold new_samples, store_samples, bind, get, lift. cbn. rewrite Hget. cbn.
  unfold setitem. rewrite Hk. cbn.
  unfold check_for_quake, candidate_peak_index, bind, get, lift. cbn.
  rewrite (getitem_insert _ _ _ _ Hk). cbn.
  rewrite Hwin, peak_detect_one, Hf. cbn.
  repeat split; try reflexivity. apply getitem_insert, Hk.
Qed.

Lemma finder_exception_reaches_caller_witness :
  let after := snd (new_samples (fun _ _ => throw OtherError) 1 [7] (init 2 1)) in
  fst (new_samples (fun _ _ => throw OtherError) 1 [7] (init 2 1)) = throw OtherError
  /\ getitem (seismographs after) 1 = ok (Some [7])
  /\ log after = log (init 2 1).
Proof.
  apply (finder_exception_reaches_caller (fun _ _ => throw OtherError) (init 2 1) 1 7 [7]
           OtherError); reflexivity.
Defined.

(** A normal return of [new_samples] needs a normal return of the peak
    search. *)
Lemma new_samples_ok_peak (f : ndarray -> Z -> exc (list Z)) (self : EarthquakeDetector)
    (seismograph_id : Z) (samples : list Z) :
  fst (new_samples f seismograph_id samples self) = ok tt ->
  exists rate window r, peak_detect f rate (Vector window) = ok r.
Proof.
  unfold new_samples, bind.
  destruct (store_samples seismograph_id samples self) as [[e | []] stored];
    [discriminate |].
  unfold check_for_quake, candidate_peak_index, bind, get, lift. cbn.
  destruct (getitem (seismographs stored) seismograph_id) as [e | [history |]]; cbn;
    try discriminate.
  destruct (peak_detect f (sample_rate stored)
              (Vector (slice_from (- month_window_size stored) history))) as [e | r] eqn:Hpeak;
    cbn; [discriminate |].
  intros _. eauto.
Qed.

(** X14: with a peak finder that reports no peak, or raises, on every array of
    one sample, the peak search never returns an index and every call of
    [new_samples], in every state of the detector, raises an exception. *)
Theorem new_samples_raises_without_peaks (find_peaks_cwt : ndarray -> Z -> exc (list Z))
    (self : EarthquakeDetector) (seismograph_id : Z) (samples : list Z) :
  (forall x w, find_peaks_cwt (Vector [x]) w = ok []
               \/ exists e, find_peaks_cwt (Vector [x]) w = throw e) ->
  (forall rate a, exists e, peak_detect find_peaks_cwt rate a = throw e)
  /\ exists e, fst (new_samples find_peaks_cwt seismograph_id samples self) = throw e.
Proof.
  intros Hfinder.
  assert (Hpeak : forall rate a, exists e, peak_detect find_peaks_cwt rate a = throw e).
  { intros rate a.
    destruct (peak_detect find_peaks_cwt rate a) as [e | r] eqn:Hr; [eauto |].
    destruct (peak_detect_ok_one_sample _ _ _ _ Hr) as [x [peak_inds [_ [Hf [Hin _]]]]].
    destruct (Hfinder x (rate * 60 * 60)) as [Hnone | [e He]].
    - rewrite Hnone in Hf. injection Hf as <-. destruct Hin.
    - rewrite He in Hf. discriminate. }
  split; [exact Hpeak |].
  destruct (fst (new_samples find_peaks_cwt seismograph_id samples self)) as [e | []] eqn:Hcall;
    [eauto |].
  destruct (new_samples_ok_peak _ _ _ _ Hcall) as [rate [window [r Hr]]].
  destruct (Hpeak rate (Vector window)) as [e He].
  rewrite He in Hr. discriminate.
Qed.

Lemma new_samples_raises_without_peaks_witness :
  (forall rate a, exists e, peak_detect finds_nothing rate a = throw e)
  /\ exists e, fst (new_samples finds_nothing 0 [7] (init 1 1)) = throw e.
Proof.
  apply (new_samples_raises_without_peaks finds_nothing (init 1 1) 0 [7]).
  intros x w. left. reflexivity.
Defined.
